(** * sensu-slack-handler: the event formatter, message assembler and
      argument validation of [main.go], embedded in Rocq.

    Go strings are byte sequences: [len] counts bytes and [s[0:n]] slices
    bytes, so a Go [string] is a Rocq [string] (a list of 8-bit [ascii]).
    Go's [int] is modelled by [Z]; run-time panics, writes to standard output
    and the webhook POST are explicit in the result types. *)

From Stdlib Require Import ZArith Bool List Ascii String Lia.
Import ListNotations.

Open Scope string_scope.
Open Scope Z_scope.

(** ** Bytes and literals *)

Definition LF : ascii := "010"%char.
Definition CR : ascii := "013"%char.

(** The Go literals ["\n"], ["\r"] and ["\r\n"]. *)
Definition lit_n : string := String LF "".
Definition lit_r : string := String CR "".
Definition lit_rn : string := String CR (String LF "").

(** Go's builtin [len] on a string. *)
Definition len (s : string) : Z := Z.of_nat (String.length s).

Definition head (s : string) : option ascii :=
  match s with
  | EmptyString => None
  | String c _ => Some c
  end.

Fixpoint last (s : string) : option ascii :=
  match s with
  | EmptyString => None
  | String c EmptyString => Some c
  | String _ s' => last s'
  end.

(** ** The part of Go's [strings] package that [main.go] calls.

    Every cutset passed by [main.go] is ASCII, for which [strings.Trim] works
    byte by byte: [trimLeftByte (trimRightByte s c) c] for a one-byte cutset
    and [trimLeftASCII (trimRightASCII s as) as] otherwise. Both are the pair
    below, with [contains] the membership test of the cutset. *)
Module strings.

Fixpoint contains (cutset : string) (c : ascii) : bool :=
  match cutset with
  | EmptyString => false
  | String d cutset' => Ascii.eqb c d || contains cutset' c
  end.

(** [for len(s) > 0 && as.contains(s[0]) { s = s[1:] }] *)
Fixpoint trimLeftASCII (s cutset : string) : string :=
  match s with
  | EmptyString => EmptyString
  | String c s' => if contains cutset c then trimLeftASCII s' cutset else s
  end.

(** [for len(s) > 0 && as.contains(s[len(s)-1]) { s = s[:len(s)-1] }],
    written by recursion from the front: a byte is dropped when everything
    after it has been dropped and it belongs to the cutset. *)
Fixpoint trimRightASCII (s cutset : string) : string :=
  match s with
  | EmptyString => EmptyString
  | String c s' =>
      match trimRightASCII s' cutset with
      | EmptyString => if contains cutset c then EmptyString else String c EmptyString
      | r => String c r
      end
  end.

Definition Trim (s cutset : string) : string :=
  trimLeftASCII (trimRightASCII s cutset) cutset.

(** [strings.Replace(s, `\n`, "\n", -1)]: every non-overlapping occurrence
    of the two bytes backslash, [n], scanning from the left, becomes one
    line feed. *)
Fixpoint ReplaceEscapedNewlines (s : string) : string :=
  match s with
  | EmptyString => EmptyString
  | String c s' =>
      match s' with
      | String d s'' =>
          if Ascii.eqb c "\"%char && Ascii.eqb d "n"%char
          then String LF (ReplaceEscapedNewlines s'')
          else String c (ReplaceEscapedNewlines s')
      | EmptyString => String c EmptyString
      end
  end.

(** Every byte of [s] belongs to [cutset]. *)
Fixpoint all_in (cutset s : string) : bool :=
  match s with
  | EmptyString => true
  | String c s' => contains cutset c && all_in cutset s'
  end.

End strings.

(** [s] neither starts nor ends with a byte of [cutset]. *)
Definition clean (cutset s : string) : Prop :=
  (forall c, head s = Some c -> strings.contains cutset c = false) /\
  (forall c, last s = Some c -> strings.contains cutset c = false).

(** ** [main.go]: the event formatter *)

(** [func chomp(s string) string] *)
Definition chomp (s : string) : string :=
  strings.Trim (strings.Trim (strings.Trim s lit_n) lit_r) lit_rn.

(** The reading of [trimTrailingLineEndings] in the specification's words:
    line endings are removed from the end of the string only. *)
Definition trimTrailingLineEndings_spec (s : string) : string :=
  strings.trimRightASCII s lit_rn.

(** ** Results of Go code that can panic, and its observable effects *)

(** A run-time panic. On an event that carries a check, the only one
    [main.go] can raise is that of a slice expression [s[0:hi]] whose bound is
    negative or beyond the length of [s]. The nil dereference of
    [event.Check] on an event without a check is outside this model (see
    [corev2.Event]), so no statement below says that a function returns, or
    does not panic, for such an event. *)
Inductive panic : Type :=
| SliceBoundsOutOfRange (hi length : Z).

Inductive outcome (A : Type) : Type :=
| Returned (a : A)
| Panicked (p : panic).
Arguments Returned {A} a.
Arguments Panicked {A} p.

(** The slice expression [s[0:hi]]. *)
Definition slice_to (s : string) (hi : Z) : outcome string :=
  if (0 <=? hi) && (hi <=? len s)
  then Returned (substring 0 (Z.to_nat hi) s)
  else Panicked (SliceBoundsOutOfRange hi (len s)).

(** ** The event, as far as the handler reads it ([corev2.Event])

    In Go [event.Entity] and [event.Check] are pointers, which [main.go]
    dereferences without a nil test. The events modelled here are those that
    carry both: every statement about an [Event] is a statement about an
    event with an entity and a check. *)
Module corev2.

Record Entity : Type := mkEntity {
  EntityName : string;
  Namespace : string
}.

(** [Status] and [Occurrences] are unsigned machine integers in Go; no
    arithmetic is done on them, so they are integers here. *)
Record Check : Type := mkCheck {
  CheckName : string;
  Status : Z;
  Output : string;
  Occurrences : Z;
  Annotations : list (string * string)
}.

Record Event : Type := mkEvent {
  Timestamp : Z;
  entity : Entity;
  check : Check
}.

(** [corev2.FixtureEvent(entity, check)]: the namespace [default], status 0
    and an empty output, which the tests rely on; the remaining fields are
    not read by the functions below. *)
Definition FixtureEvent (entityName checkName : string) : Event :=
  mkEvent 0 (mkEntity entityName "default") (mkCheck checkName 0 "" 0 []).

Definition withOutput (ev : Event) (out : string) : Event :=
  let c := check ev in
  mkEvent (Timestamp ev) (entity ev)
    (mkCheck (CheckName c) (Status c) out (Occurrences c) (Annotations c)).

Definition withStatus (ev : Event) (st : Z) : Event :=
  let c := check ev in
  mkEvent (Timestamp ev) (entity ev)
    (mkCheck (CheckName c) st (Output c) (Occurrences c) (Annotations c)).

End corev2.
Import corev2.

(** ** The Slack payload ([slack.Attachment], [slack.WebhookMessage]) *)
Module slack.

Record AttachmentField : Type := mkField {
  fieldTitle : string;
  fieldValue : string;
  fieldShort : bool
}.

Record AttachmentAction : Type := mkAction {
  actionName : string;
  actionText : string;
  actionStyle : string;
  actionType : string;
  actionValue : string;
  actionURL : string
}.

(** A field the struct literal of [messageAttachment] does not mention has
    Go's zero value: the empty string or the nil slice. *)
Record Attachment : Type := mkAttachment {
  Color : string;
  Fallback : string;
  Pretext : string;
  Title : string;
  TitleLink : string;
  Text : string;
  Fields : list AttachmentField;
  Actions : list AttachmentAction;
  MarkdownIn : list string;
  Footer : string;
  FooterIcon : string
}.

Record WebhookMessage : Type := mkWebhookMessage {
  Username : string;
  IconURL : string;
  Channel : string;
  Attachments : list Attachment
}.

End slack.

(** What a run of the handler does to the outside world, in order. *)
Inductive effect : Type :=
| Stdout (s : string)
| HTTPPost (url : string) (msg : slack.WebhookMessage).

(** A computation that writes effects and then returns or panics. *)
Definition IO (A : Type) : Type := (list effect * outcome A)%type.

Definition ret {A : Type} (a : A) : IO A := ([], Returned a).

Definition bind {A B : Type} (m : IO A) (k : A -> IO B) : IO B :=
  match m with
  | (t, Returned a) => let (t', r) := k a in ((t ++ t')%list, r)
  | (t, Panicked p) => (t, Panicked p)
  end.

Notation "x <- m ;; k" := (bind m (fun x => k))
  (at level 61, m at next level, right associativity).

Definition lift {A : Type} (o : outcome A) : IO A := ([], o).

Definition Printf (s : string) : IO unit := ([Stdout s], Returned tt).

(** ** Configuration *)

Record PluginConfig : Type := mkPluginConfig {
  Name : string;
  Short : string;
  Keyspace : string
}.

Record HandlerConfig : Type := mkHandlerConfig {
  pluginConfig : PluginConfig;
  sensuUIURL : string;
  slackwebHookURL : string;
  slackChannel : string;
  slackUsername : string;
  slackIconURL : string;
  slackDescriptionTemplate : string;
  slackAlertCritical : bool
}.

Definition uiURL : string := "ui-url".
Definition webHookURL : string := "webhook-url".
Definition defaultChannel : string := "#general".
Definition defaultIconURL : string := "https://www.sensu.io/img/sensu-logo.png".
Definition defaultUsername : string := "sensu".

(** The package-level [config] before the SDK fills in the options. *)
Definition config : HandlerConfig :=
  mkHandlerConfig
    (mkPluginConfig "sensu-slack-handler"
       "The Sensu Go Slack handler for notifying a channel"
       "sensu.io/plugins/slack/config")
    "" "" "" "" "" "" false.

Definition set_slackwebHookURL (cfg : HandlerConfig) (v : string) : HandlerConfig :=
  mkHandlerConfig (pluginConfig cfg) (sensuUIURL cfg) v (slackChannel cfg)
    (slackUsername cfg) (slackIconURL cfg) (slackDescriptionTemplate cfg)
    (slackAlertCritical cfg).

Definition set_slackChannel (cfg : HandlerConfig) (v : string) : HandlerConfig :=
  mkHandlerConfig (pluginConfig cfg) (sensuUIURL cfg) (slackwebHookURL cfg) v
    (slackUsername cfg) (slackIconURL cfg) (slackDescriptionTemplate cfg)
    (slackAlertCritical cfg).

Definition set_slackUsername (cfg : HandlerConfig) (v : string) : HandlerConfig :=
  mkHandlerConfig (pluginConfig cfg) (sensuUIURL cfg) (slackwebHookURL cfg)
    (slackChannel cfg) v (slackIconURL cfg) (slackDescriptionTemplate cfg)
    (slackAlertCritical cfg).

Definition set_slackIconURL (cfg : HandlerConfig) (v : string) : HandlerConfig :=
  mkHandlerConfig (pluginConfig cfg) (sensuUIURL cfg) (slackwebHookURL cfg)
    (slackChannel cfg) (slackUsername cfg) v (slackDescriptionTemplate cfg)
    (slackAlertCritical cfg).

(** The process environment; [os.Getenv] returns the empty string for a
    variable that is not set. *)
Definition Env : Type := list (string * string).

Fixpoint Getenv (env : Env) (key : string) : string :=
  match env with
  | [] => ""
  | (k, v) :: env' => if String.eqb k key then v else Getenv env' key
  end.

(** [func checkArgs(_ *corev2.Event) error]: the configuration it leaves
    behind and the error it returns ([None] is Go's [nil]). *)
Definition checkArgs (env : Env) (cfg : HandlerConfig) (_ : Event)
  : HandlerConfig * option string :=
  let cfg :=
    let webhook := Getenv env "SENSU_SLACK_WEBHOOK_URL" in
    if negb (String.eqb webhook "") then set_slackwebHookURL cfg webhook else cfg in
  let cfg :=
    let channel := Getenv env "SENSU_SLACK_CHANNEL" in
    if negb (String.eqb channel "") && String.eqb (slackChannel cfg) defaultChannel
    then set_slackChannel cfg channel else cfg in
  let cfg :=
    let username := Getenv env "SENSU_SLACK_USERNAME" in
    if negb (String.eqb username "") && String.eqb (slackUsername cfg) defaultUsername
    then set_slackUsername cfg username else cfg in
  let cfg :=
    let icon := Getenv env "SENSU_SLACK_ICON_URL" in
    if negb (String.eqb icon "") && String.eqb (slackIconURL cfg) defaultIconURL
    then set_slackIconURL cfg icon else cfg in
  if len (slackwebHookURL cfg) =? 0 then
    (cfg, Some ("--" ++ webHookURL ++ " or SLACK_WEBHOOK_URL environment variable is required"))
  else if len (sensuUIURL cfg) =? 0 then
    (cfg, Some ("--" ++ uiURL ++ " or SENSU_UI_URL environment variable is required"))
  else (cfg, None).

(** The webhook URL [checkArgs] leaves in the configuration: the deprecated
    variable whenever it is set, the configured value otherwise. *)
Definition webhook_after_overlay (env : Env) (cfg : HandlerConfig) : string :=
  if String.eqb (Getenv env "SENSU_SLACK_WEBHOOK_URL") ""
  then slackwebHookURL cfg
  else Getenv env "SENSU_SLACK_WEBHOOK_URL".

(** The webhook URL in the specification's words: the deprecated variable is
    a fallback, read only while the option is still unset. This is the guard
    the three sibling overlays of [checkArgs] have (the webhook URL has no
    compiled-in default, so "unset" is the empty string). *)
Definition webhook_fallback_only (env : Env) (cfg : HandlerConfig) : string :=
  if String.eqb (slackwebHookURL cfg) ""
  then Getenv env "SENSU_SLACK_WEBHOOK_URL"
  else slackwebHookURL cfg.

(** ** Formatting *)

Definition formattedEventAction (event : Event) : string :=
  match Status (check event) with
  | 0 => "RESOLVED"
  | _ => "ALERT"
  end.

Definition eventKey (event : Event) : string :=
  EntityName (entity event) ++ "/" ++ CheckName (check event).

(** [func eventSummary(event *corev2.Event, maxLength int) string] *)
Definition eventSummary (event : Event) (maxLength : Z) : outcome string :=
  let output := chomp (Output (check event)) in
  let output :=
    if len (Output (check event)) >? maxLength then
      match slice_to output maxLength with
      | Returned prefix => Returned (prefix ++ "...")
      | Panicked p => Panicked p
      end
    else Returned output in
  match output with
  | Returned output => Returned (eventKey event ++ ":" ++ output)
  | Panicked p => Panicked p
  end.

Definition eventURL (cfg : HandlerConfig) (event : Event) : string :=
  sensuUIURL cfg ++ "/n/" ++ Namespace (entity event) ++ "/events/"
    ++ EntityName (entity event) ++ "/" ++ CheckName (check event).

Definition formattedMessage (event : Event) : outcome string :=
  match eventSummary event 100 with
  | Returned summary => Returned (formattedEventAction event ++ " - " ++ summary)
  | Panicked p => Panicked p
  end.

Definition messageColor (event : Event) : string :=
  match Status (check event) with
  | 0 => "#36a64f"
  | 1 => "#ffcc00"
  | 2 => "#ff0000"
  | _ => "#6600cc"
  end.

(** The summary in the specification's words: the output is cut to its first
    [maxLength] characters (all of it when it has fewer) whenever the
    untrimmed output is longer than [maxLength]. *)
Definition summary_spec (event : Event) (maxLength : Z) : string :=
  let output := chomp (Output (check event)) in
  eventKey event ++ ":" ++
    (if len (Output (check event)) >? maxLength
     then substring 0 (Z.to_nat maxLength) output ++ "..."
     else output).

(** The summary as the claim words it: line endings are trimmed from the end
    of the output only. *)
Definition summary_trailing_spec (event : Event) (maxLength : Z) : string :=
  let output := trimTrailingLineEndings_spec (Output (check event)) in
  eventKey event ++ ":" ++
    (if len (Output (check event)) >? maxLength
     then substring 0 (Z.to_nat maxLength) output ++ "..."
     else output).

(** ** Message assembly and delivery *)

Section Handler.

(** [templates.EvalTemplate] of the plugin SDK: the rendered text and the
    error, if any. *)
Variable EvalTemplate : string -> string -> Event -> string * option string.

(** [slack.PostWebhook]: the error of the HTTP exchange, if any. *)
Variable PostWebhook : string -> slack.WebhookMessage -> option string.

(** [func messageAttachment(event *corev2.Event) slack.Attachment] *)
Definition messageAttachment (cfg : HandlerConfig) (event : Event)
  : IO slack.Attachment :=
  let (description, err) :=
    EvalTemplate "description" (slackDescriptionTemplate cfg) event in
  _ <- match err with
       | Some e => Printf (Name (pluginConfig cfg) ++ ": Error processing template: " ++ e)
       | None => ret tt
       end ;;
  let description := strings.ReplaceEscapedNewlines description in
  fallback <- lift (formattedMessage event) ;;
  ret (slack.mkAttachment
         (messageColor event)        (* Color *)
         fallback                    (* Fallback *)
         ""                          (* Pretext *)
         ""                          (* Title *)
         ""                          (* TitleLink *)
         description                 (* Text *)
         []                          (* Fields *)
         [slack.mkAction "" "View in Sensu" "" "button" "" (eventURL cfg event)]
         ["text"]                    (* MarkdownIn *)
         ""                          (* Footer *)
         "").                        (* FooterIcon *)

(** [func sendMessage(event *corev2.Event) error] *)
Definition sendMessage (cfg : HandlerConfig) (event : Event) : IO (option string) :=
  attachment <- messageAttachment cfg event ;;
  let hookmsg :=
    slack.mkWebhookMessage (slackUsername cfg) (slackIconURL cfg)
      (slackChannel cfg) [attachment] in
  err <- ([HTTPPost (slackwebHookURL cfg) hookmsg],
          Returned (PostWebhook (slackwebHookURL cfg) hookmsg)) ;;
  match err with
  | Some e => ret (Some ("Failed to send Slack message: " ++ e))
  | None =>
      _ <- Printf ("Notification sent to Slack channel " ++ slackChannel cfg ++ lit_n) ;;
      ret None
  end.

(** Modelled from the spec: the plugin SDK's handler workflow behind
    [sensu.NewGoHandler(..., checkArgs, sendMessage).Execute()], which is
    not part of this repository. The harness calls the validation function
    and, only when it returned no error, the execute function; the exit
    status is 0 on success and 1 otherwise. *)
Definition goHandlerWorkflow (env : Env) (cfg : HandlerConfig) (event : Event)
  : IO (Z * option string) :=
  let (cfg', err) := checkArgs env cfg event in
  match err with
  | Some e => ret (1, Some ("error validating input: " ++ e))
  | None =>
      err <- sendMessage cfg' event ;;
      match err with
      | Some e => ret (1, Some ("error executing handler: " ++ e))
      | None => ret (0, None)
      end
  end.

End Handler.

(** ** Concrete inputs *)

(** The event of [TestEventSummary]. *)
Definition ev_disk : Event :=
  withOutput (FixtureEvent "entity1" "check1") "disk is full".

(** The output [ab] followed by three line feeds: five bytes, two of them left
    by [chomp]. *)
Definition ev_trailing : Event :=
  withOutput (FixtureEvent "entity1" "check1") ("ab" ++ lit_n ++ lit_n ++ lit_n).

(** A line of 99 bytes ended by a carriage return and a line feed: 101 bytes,
    99 of them left by [chomp]. *)
Definition line99 : string :=
  "CRITICAL: filesystem /var/lib/sensu is 97% full, 4.1G of 137G free; threshold 95%; host db-07.local".

Definition ev_crlf : Event :=
  withStatus (withOutput (FixtureEvent "entity1" "check1") (line99 ++ lit_rn)) 2.

(** An evaluator that fails the way the SDK does on a malformed template:
    no text and an error. *)
Definition failingTemplate (name template : string) (event : Event)
  : string * option string :=
  ("", Some "template: description:1: unclosed action").

Definition cfg_primary : HandlerConfig :=
  mkHandlerConfig (pluginConfig config) "http://example.com/ui"
    "http://example.com/webhook" defaultChannel defaultUsername defaultIconURL
    "Sensu Event Details" false.

Definition env_deprecated : Env :=
  [("SENSU_SLACK_WEBHOOK_URL", "http://old.example.com/webhook")].

(** The output of [TestEventSummary] behind one line feed: 13 bytes. *)
Definition ev_leading : Event :=
  withOutput (FixtureEvent "entity1" "check1") (lit_n ++ "disk is full").

(** Two events with the same status that differ everywhere else. *)
Definition ev_a : Event :=
  mkEvent 1700000000 (mkEntity "web-01" "default")
    (mkCheck "check-http" 2 "connection refused" 1 []).

Definition ev_b : Event :=
  mkEvent 42 (mkEntity "db-07" "production")
    (mkCheck "check-disk" 2 "disk is full" 7 [("runbook_url", "https://runbooks.example/disk")]).

(** ** Observations used in the properties of the remaining code *)

(** [s] contains the two bytes backslash, [n] next to each other: the
    pattern [strings.Replace] looks for in [messageAttachment]. *)
Fixpoint has_escaped_newline (s : string) : bool :=
  match s with
  | EmptyString => false
  | String c s' =>
      match s' with
      | String d _ =>
          (Ascii.eqb c "\"%char && Ascii.eqb d "n"%char) || has_escaped_newline s'
      | EmptyString => false
      end
  end.

(** The webhook POSTs of a run, in order. *)
Fixpoint posts (t : list effect) : list (string * slack.WebhookMessage) :=
  match t with
  | [] => []
  | HTTPPost url msg :: t' => (url, msg) :: posts t'
  | Stdout _ :: t' => posts t'
  end.

(** The value one of the three guarded overlays of [checkArgs] leaves in an
    option: the deprecated variable [key] when it is set and the option still
    has its default, the option's value otherwise. *)
Definition overlay_default (env : Env) (key current default : string) : string :=
  if negb (String.eqb (Getenv env key) "") && String.eqb current default
  then Getenv env key
  else current.

(** The confirmation [sendMessage] prints after a successful POST. *)
Definition confirmation (cfg : HandlerConfig) : string :=
  "Notification sent to Slack channel " ++ slackChannel cfg ++ lit_n.

(** An evaluator that succeeds with a text holding an escaped newline. *)
Definition okTemplate (name template : string) (event : Event)
  : string * option string :=
  ("*OK* on " ++ EntityName (entity event) ++ "\n" ++ Output (check event), None).

Definition cfg_custom : HandlerConfig :=
  mkHandlerConfig (pluginConfig config) "http://example.com/ui"
    "http://example.com/webhook" "#ops" "monitor" "http://example.com/icon.png"
    "Sensu Event Details" true.

Definition env_all_deprecated : Env :=
  [("SENSU_SLACK_WEBHOOK_URL", "http://old.example.com/webhook");
   ("SENSU_SLACK_CHANNEL", "#legacy");
   ("SENSU_SLACK_USERNAME", "legacy-bot");
   ("SENSU_SLACK_ICON_URL", "http://old.example.com/icon.png")].

(** The output [disk] with a line feed after it: five bytes, four after
    [chomp]. *)
Definition ev_newline : Event :=
  withOutput (FixtureEvent "entity1" "check1") ("disk" ++ lit_n).

(** * Properties *)

(** ** Strings *)

Lemma append_assoc (a b c : string) : (a ++ b) ++ c = a ++ (b ++ c).
Proof. induction a as [|x a IH]; simpl; [reflexivity | now rewrite IH]. Qed.

Lemma append_empty_r (a : string) : a ++ "" = a.
Proof. induction a as [|x a IH]; simpl; [reflexivity | now rewrite IH]. Qed.

Lemma length_append (a b : string) :
  String.length (a ++ b) = (String.length a + String.length b)%nat.
Proof. induction a as [|x a IH]; simpl; [reflexivity | now rewrite IH]. Qed.

Lemma len_append (a b : string) : len (a ++ b) = len a + len b.
Proof. unfold len. rewrite length_append. lia. Qed.

Lemma len_nonneg (s : string) : 0 <= len s.
Proof. unfold len. lia. Qed.

Lemma length_substring_prefix (n : nat) (s : string) :
  (n <= String.length s)%nat -> String.length (substring 0 n s) = n.
Proof.
  revert s. induction n as [|n IH]; intros s Hn.
  - destruct s; reflexivity.
  - destruct s as [|c s]; simpl in *; [lia |].
    rewrite IH; [reflexivity | lia].
Qed.

Lemma substring_prefix_append (n : nat) (s : string) :
  (n <= String.length s)%nat -> exists rest, s = substring 0 n s ++ rest.
Proof.
  revert s. induction n as [|n IH]; intros s Hn.
  - exists s. destruct s; reflexivity.
  - destruct s as [|c s]; simpl in *; [lia |].
    destruct (IH s) as [rest Hrest]; [lia |].
    exists rest. simpl. now rewrite <- Hrest.
Qed.

Lemma all_in_append (cutset a b : string) :
  strings.all_in cutset (a ++ b) = strings.all_in cutset a && strings.all_in cutset b.
Proof.
  induction a as [|x a IH]; simpl; [reflexivity |].
  now rewrite IH, andb_assoc.
Qed.

Lemma all_in_weaken (small big s : string) :
  (forall c, strings.contains small c = true -> strings.contains big c = true) ->
  strings.all_in small s = true -> strings.all_in big s = true.
Proof.
  intros Hsub. induction s as [|x s IH]; simpl; [reflexivity |].
  rewrite !andb_true_iff. intros [Hx Hs]. split; auto.
Qed.

Lemma last_cons_nonempty (c d : ascii) (s : string) :
  last (String c (String d s)) = last (String d s).
Proof. reflexivity. Qed.

(** ** [strings.Trim] *)

(** What [trimLeftASCII] removes is a run of cutset bytes, and what it leaves
    does not start with one. *)
Lemma trimLeftASCII_decomp (s cutset : string) :
  exists a, s = a ++ strings.trimLeftASCII s cutset /\
            strings.all_in cutset a = true.
Proof.
  induction s as [|x s [a [Ha Hall]]]; simpl.
  - exists "". split; reflexivity.
  - destruct (strings.contains cutset x) eqn:Hx.
    + exists (String x a). simpl. rewrite Hx, Hall. split; [now rewrite <- Ha | reflexivity].
    + exists "". split; reflexivity.
Qed.

Lemma trimLeftASCII_head (s cutset : string) (c : ascii) :
  head (strings.trimLeftASCII s cutset) = Some c -> strings.contains cutset c = false.
Proof.
  induction s as [|x s IH]; simpl; [discriminate |].
  destruct (strings.contains cutset x) eqn:Hx; [exact IH |].
  simpl. intros [= <-]. exact Hx.
Qed.

(** [trimLeftASCII] keeps a suffix, hence the last byte whenever it keeps
    anything. *)
Lemma trimLeftASCII_last (s cutset : string) (c : ascii) :
  last (strings.trimLeftASCII s cutset) = Some c -> last s = Some c.
Proof.
  induction s as [|x s IH]; simpl; [discriminate |].
  destruct (strings.contains cutset x) eqn:Hx.
  - intros H. destruct s as [|y s]; [discriminate H |]. now apply IH.
  - intros H. exact H.
Qed.

Lemma trimRightASCII_decomp (s cutset : string) :
  exists b, s = strings.trimRightASCII s cutset ++ b /\
            strings.all_in cutset b = true.
Proof.
  induction s as [|x s [b [Hb Hall]]]; simpl.
  - exists "". split; reflexivity.
  - destruct (strings.trimRightASCII s cutset) as [|y r] eqn:Hr.
    + destruct (strings.contains cutset x) eqn:Hx.
      * exists (String x b). simpl in *. rewrite Hx, Hall. split; [now rewrite <- Hb | reflexivity].
      * exists b. simpl in *. split; [now rewrite <- Hb | assumption].
    + exists b. split; [| assumption]. simpl. f_equal. exact Hb.
Qed.

Lemma trimRightASCII_last (s cutset : string) (c : ascii) :
  last (strings.trimRightASCII s cutset) = Some c -> strings.contains cutset c = false.
Proof.
  induction s as [|x s IH]; simpl; [discriminate |].
  destruct (strings.trimRightASCII s cutset) as [|y r] eqn:Hr.
  - destruct (strings.contains cutset x) eqn:Hx; simpl; [discriminate |].
    intros [= <-]. exact Hx.
  - rewrite last_cons_nonempty. exact IH.
Qed.

Lemma trimLeftASCII_id (s cutset : string) :
  (forall c, head s = Some c -> strings.contains cutset c = false) ->
  strings.trimLeftASCII s cutset = s.
Proof.
  destruct s as [|x s]; simpl; [reflexivity |].
  intros H. now rewrite (H x eq_refl).
Qed.

Lemma trimRightASCII_id (s cutset : string) :
  (forall c, last s = Some c -> strings.contains cutset c = false) ->
  strings.trimRightASCII s cutset = s.
Proof.
  induction s as [|x s IH]; simpl; [reflexivity |].
  intros H. destruct s as [|y s].
  - simpl. now rewrite (H x eq_refl).
  - rewrite IH by exact H. reflexivity.
Qed.

Lemma Trim_decomp (s cutset : string) :
  exists a b, s = a ++ strings.Trim s cutset ++ b /\
              strings.all_in cutset a = true /\
              strings.all_in cutset b = true.
Proof.
  unfold strings.Trim.
  destruct (trimRightASCII_decomp s cutset) as [b [Hb Hallb]].
  destruct (trimLeftASCII_decomp (strings.trimRightASCII s cutset) cutset) as [a [Ha Halla]].
  exists a, b. repeat split; try assumption.
  rewrite <- append_assoc, <- Ha. exact Hb.
Qed.

Lemma Trim_clean (s cutset : string) : clean cutset (strings.Trim s cutset).
Proof.
  unfold strings.Trim. split; intros c Hc.
  - eapply trimLeftASCII_head; eassumption.
  - eapply trimRightASCII_last. eapply trimLeftASCII_last. eassumption.
Qed.

Lemma Trim_id (s cutset : string) : clean cutset s -> strings.Trim s cutset = s.
Proof.
  intros [Hh Hl]. unfold strings.Trim.
  rewrite (trimRightASCII_id s cutset Hl). now apply trimLeftASCII_id.
Qed.

Lemma clean_weaken (small big s : string) :
  (forall c, strings.contains small c = true -> strings.contains big c = true) ->
  clean big s -> clean small s.
Proof.
  intros Hsub [Hh Hl]. split; intros c Hc.
  - specialize (Hh c Hc). destruct (strings.contains small c) eqn:E; [| reflexivity].
    apply Hsub in E. congruence.
  - specialize (Hl c Hc). destruct (strings.contains small c) eqn:E; [| reflexivity].
    apply Hsub in E. congruence.
Qed.

Lemma lit_n_sub (c : ascii) :
  strings.contains lit_n c = true -> strings.contains lit_rn c = true.
Proof. simpl. intros H. rewrite orb_false_r in H. rewrite H. now rewrite orb_true_r. Qed.

Lemma lit_r_sub (c : ascii) :
  strings.contains lit_r c = true -> strings.contains lit_rn c = true.
Proof. simpl. intros H. rewrite orb_false_r in H. now rewrite H. Qed.

(** ** [chomp] *)

Lemma chomp_clean (s : string) : clean lit_rn (chomp s).
Proof. apply Trim_clean. Qed.

Lemma chomp_id (s : string) : clean lit_rn s -> chomp s = s.
Proof.
  intros H. unfold chomp.
  rewrite (Trim_id s lit_n) by (eapply clean_weaken; [exact lit_n_sub | exact H]).
  rewrite (Trim_id s lit_r) by (eapply clean_weaken; [exact lit_r_sub | exact H]).
  now apply Trim_id.
Qed.

Lemma chomp_decomp (s : string) :
  exists a b, s = a ++ chomp s ++ b /\
              strings.all_in lit_rn a = true /\
              strings.all_in lit_rn b = true.
Proof.
  unfold chomp.
  remember (strings.Trim s lit_n) as t1 eqn:E1.
  remember (strings.Trim t1 lit_r) as t2 eqn:E2.
  remember (strings.Trim t2 lit_rn) as t3 eqn:E3.
  destruct (Trim_decomp s lit_n) as [a1 [b1 [H1 [Ha1 Hb1]]]].
  destruct (Trim_decomp t1 lit_r) as [a2 [b2 [H2 [Ha2 Hb2]]]].
  destruct (Trim_decomp t2 lit_rn) as [a3 [b3 [H3 [Ha3 Hb3]]]].
  rewrite <- E1 in H1. rewrite <- E2 in H2. rewrite <- E3 in H3.
  exists (a1 ++ a2 ++ a3), (b3 ++ b2 ++ b1).
  split; [| split].
  - rewrite H1, H2, H3. now rewrite !append_assoc.
  - rewrite !all_in_append, Ha3.
    rewrite (all_in_weaken lit_n lit_rn a1 lit_n_sub Ha1).
    rewrite (all_in_weaken lit_r lit_rn a2 lit_r_sub Ha2). reflexivity.
  - rewrite !all_in_append, Hb3.
    rewrite (all_in_weaken lit_n lit_rn b1 lit_n_sub Hb1).
    rewrite (all_in_weaken lit_r lit_rn b2 lit_r_sub Hb2). reflexivity.
Qed.

Lemma len_chomp_le (s : string) : len (chomp s) <= len s.
Proof.
  destruct (chomp_decomp s) as [a [b [H _]]].
  rewrite H at 2. rewrite !len_append.
  pose proof (len_nonneg a). pose proof (len_nonneg b). lia.
Qed.

(** C2 (as stated, refuted): [chomp] also removes a leading line feed, so the
    string it returns is not the input with a trailing run removed. *)
Lemma chomp_strips_leading_line_ending :
  chomp (String LF "hello") = "hello" /\
  chomp (String LF "hello") <> trimTrailingLineEndings_spec (String LF "hello") /\
  ~ (exists b, String LF "hello" = chomp (String LF "hello") ++ b).
Proof.
  split; [reflexivity | split].
  - vm_compute. discriminate.
  - intros [b Hb]. vm_compute in Hb. discriminate Hb.
Qed.

(** C2 (amended): for every string [s], [chomp] removes the maximal leading
    run and the maximal trailing run of line-feed and carriage-return bytes
    and changes nothing else: [s] is [a ++ chomp s ++ b] where [a] and [b]
    consist of such bytes only, and [chomp s] neither starts nor ends with
    one. *)
Theorem chomp_strips_both_ends (s : string) :
  exists a b, s = a ++ chomp s ++ b /\
              strings.all_in lit_rn a = true /\
              strings.all_in lit_rn b = true /\
              clean lit_rn (chomp s).
Proof.
  destruct (chomp_decomp s) as [a [b [H [Ha Hb]]]].
  exists a, b. repeat split; try assumption; apply chomp_clean.
Qed.

(** C9: [chomp] is idempotent. *)
Theorem chomp_idempotent (s : string) : chomp (chomp s) = chomp s.
Proof. apply chomp_id, chomp_clean. Qed.

(** The examples of [TestChomp]. *)
Example chomp_tests :
  chomp ("hello" ++ lit_n) = "hello" /\
  chomp ("hello" ++ lit_r) = "hello" /\
  chomp ("hello" ++ lit_rn) = "hello" /\
  chomp ("hello" ++ lit_rn ++ lit_rn ++ lit_rn) = "hello".
Proof. repeat split. Qed.

(** ** [eventSummary] *)

Lemma slice_to_returned (s : string) (hi : Z) :
  0 <= hi <= len s -> slice_to s hi = Returned (substring 0 (Z.to_nat hi) s).
Proof.
  intros [H0 H1]. unfold slice_to.
  destruct (Z.leb_spec 0 hi); [| lia].
  destruct (Z.leb_spec hi (len s)); [reflexivity | lia].
Qed.

Lemma slice_to_panicked (s : string) (hi : Z) :
  hi < 0 \/ len s < hi -> slice_to s hi = Panicked (SliceBoundsOutOfRange hi (len s)).
Proof.
  intros H. unfold slice_to.
  destruct (Z.leb_spec 0 hi); [| reflexivity].
  destruct (Z.leb_spec hi (len s)); [lia | reflexivity].
Qed.

(** Exactly when [eventSummary] panics: the untrimmed output is longer than
    [maxLength], and [maxLength] is negative or beyond the trimmed output. *)
Lemma eventSummary_panics_iff (event : Event) (maxLength : Z) :
  (exists p, eventSummary event maxLength = Panicked p) <->
  maxLength < len (Output (check event)) /\
  (maxLength < 0 \/ len (chomp (Output (check event))) < maxLength).
Proof.
  unfold eventSummary.
  destruct (Z.gtb_spec (len (Output (check event))) maxLength) as [Hgt | Hle].
  - destruct (Z_lt_le_dec maxLength 0) as [Hneg | Hpos].
    + rewrite slice_to_panicked by lia. split; [lia | eauto].
    + destruct (Z_lt_le_dec (len (chomp (Output (check event)))) maxLength) as [Hout | Hin].
      * rewrite slice_to_panicked by lia. split; [lia | eauto].
      * rewrite slice_to_returned by lia. split; [intros [p Hp]; discriminate Hp | lia].
  - split; [intros [p Hp]; discriminate Hp | lia].
Qed.

(** Where [eventSummary] truncates and returns, it keeps exactly [maxLength]
    bytes of the trimmed output before the three dots. *)
Lemma eventSummary_truncation_bound (event : Event) (maxLength : Z) (r : string) :
  maxLength < len (Output (check event)) ->
  eventSummary event maxLength = Returned r ->
  exists kept rest,
    r = eventKey event ++ ":" ++ kept ++ "..." /\
    chomp (Output (check event)) = kept ++ rest /\
    len kept = maxLength.
Proof.
  intros Hlt. unfold eventSummary.
  destruct (Z.gtb_spec (len (Output (check event))) maxLength) as [_ | Hle]; [| lia].
  unfold slice_to.
  destruct (Z.leb_spec 0 maxLength) as [H0 |]; [| discriminate].
  destruct (Z.leb_spec maxLength (len (chomp (Output (check event))))) as [H1 |]; [| discriminate].
  simpl. intros [= <-].
  assert (Hn : (Z.to_nat maxLength <= String.length (chomp (Output (check event))))%nat)
    by (unfold len in H1; lia).
  destruct (substring_prefix_append _ _ Hn) as [rest Hrest].
  exists (substring 0 (Z.to_nat maxLength) (chomp (Output (check event)))), rest.
  repeat split; [exact Hrest |].
  unfold len. rewrite length_substring_prefix by exact Hn. lia.
Qed.

(** C1 (the code at the failing input): the output [ab] followed by three
    line feeds is five bytes long, more than [maxLength = 4], but [chomp]
    leaves two bytes, and slicing them to four panics. The same happens at
    the length 100 that [formattedMessage] uses, for a line of 99 bytes ended
    by carriage return and line feed. *)
Theorem eventSummary_slice_out_of_range :
  len (Output (check ev_trailing)) = 5 /\
  chomp (Output (check ev_trailing)) = "ab" /\
  eventSummary ev_trailing 4 = Panicked (SliceBoundsOutOfRange 4 2) /\
  eventSummary ev_crlf 100 = Panicked (SliceBoundsOutOfRange 100 99).
Proof. repeat split. Qed.

(** C5 (as stated, refuted): the summary does not only trim the end of the
    output. For the 13-byte output made of a line feed and [disk is full],
    far below [maxLength = 100], [eventSummary] returns the summary without
    the leading line feed, where trimming trailing line endings only would
    have kept it. *)
Lemma eventSummary_strips_leading_line_ending :
  len (Output (check ev_leading)) = 13 /\
  eventSummary ev_leading 100 = Returned "entity1/check1:disk is full" /\
  summary_trailing_spec ev_leading 100 = "entity1/check1:" ++ lit_n ++ "disk is full" /\
  eventSummary ev_leading 100 <> Returned (summary_trailing_spec ev_leading 100).
Proof.
  split; [reflexivity | split; [reflexivity | split; [reflexivity |]]].
  vm_compute. discriminate.
Qed.

(** Where the slice is in range, or not taken, [eventSummary] returns the
    summary of the description. *)
Lemma eventSummary_in_range (event : Event) (maxLength : Z) :
  len (Output (check event)) <= maxLength \/
  0 <= maxLength <= len (chomp (Output (check event))) ->
  eventSummary event maxLength = Returned (summary_spec event maxLength).
Proof.
  intros H. unfold eventSummary, summary_spec.
  destruct (Z.gtb_spec (len (Output (check event))) maxLength) as [Hgt | Hle].
  - destruct H as [H | H]; [lia |].
    now rewrite slice_to_returned by exact H.
  - reflexivity.
Qed.

(** C5 (amended): [eventSummary] strips the line endings at both ends of the
    check output ([chomp]), not only the trailing ones. For every event and
    every [maxLength] such that the untrimmed output is at most [maxLength]
    bytes long, or [maxLength] lies between 0 and the length of the output
    after [chomp], it returns ["{entity}/{check}:{output}"], where the output
    is the one after [chomp], cut to its first [maxLength] bytes and followed
    by ["..."] exactly when the untrimmed output is longer than [maxLength].
    The inputs on which the slice is out of range are left out. *)
Theorem eventSummary_refines_spec (event : Event) (maxLength : Z) :
  len (Output (check event)) <= maxLength \/
  0 <= maxLength <= len (chomp (Output (check event))) ->
  eventSummary event maxLength =
    Returned
      (EntityName (entity event) ++ "/" ++ CheckName (check event) ++ ":" ++
         (if len (Output (check event)) >? maxLength
          then substring 0 (Z.to_nat maxLength) (chomp (Output (check event))) ++ "..."
          else chomp (Output (check event)))).
Proof.
  intros H. rewrite (eventSummary_in_range event maxLength H).
  unfold summary_spec, eventKey. now rewrite !append_assoc.
Qed.

(** The two summaries of [TestEventSummary], obtained from the theorem. *)
Lemma eventSummary_refines_spec_witness :
  eventSummary ev_disk 5 = Returned "entity1/check1:disk ..." /\
  eventSummary ev_disk 100 = Returned "entity1/check1:disk is full".
Proof.
  split.
  - rewrite (eventSummary_refines_spec ev_disk 5); [reflexivity |].
    right. vm_compute. split; discriminate.
  - rewrite (eventSummary_refines_spec ev_disk 100); [reflexivity |].
    left. vm_compute. discriminate.
Defined.

(** ** [formattedEventAction] and [messageColor] *)

(** C8: the color is defined for every integer status: green for 0, amber for
    1, red for 2 and purple for every other value. *)
Theorem messageColor_total (event : Event) :
  (Status (check event) = 0 -> messageColor event = "#36a64f") /\
  (Status (check event) = 1 -> messageColor event = "#ffcc00") /\
  (Status (check event) = 2 -> messageColor event = "#ff0000") /\
  (Status (check event) <> 0 -> Status (check event) <> 1 ->
   Status (check event) <> 2 -> messageColor event = "#6600cc").
Proof.
  unfold messageColor. repeat split; intros.
  - now rewrite H.
  - now rewrite H.
  - now rewrite H.
  - destruct (Status (check event)) as [|p|p]; try reflexivity; [congruence |].
    destruct p as [[p|p|]|[p|p|]|]; try reflexivity; congruence.
Qed.

(** The four colors of [TestMessageColor], and a negative status. *)
Lemma messageColor_total_witness :
  messageColor (withStatus ev_disk 0) = "#36a64f" /\
  messageColor (withStatus ev_disk 1) = "#ffcc00" /\
  messageColor (withStatus ev_disk 2) = "#ff0000" /\
  messageColor (withStatus ev_disk 3) = "#6600cc" /\
  messageColor (withStatus ev_disk (-1)) = "#6600cc".
Proof.
  split; [| split; [| split; [| split]]].
  - apply (proj1 (messageColor_total (withStatus ev_disk 0))). reflexivity.
  - apply (proj1 (proj2 (messageColor_total (withStatus ev_disk 1)))). reflexivity.
  - apply (proj1 (proj2 (proj2 (messageColor_total (withStatus ev_disk 2))))). reflexivity.
  - apply (proj2 (proj2 (proj2 (messageColor_total (withStatus ev_disk 3))))); discriminate.
  - apply (proj2 (proj2 (proj2 (messageColor_total (withStatus ev_disk (-1)))))); discriminate.
Defined.

Lemma formattedEventAction_cases (event : Event) :
  formattedEventAction event =
    if Status (check event) =? 0 then "RESOLVED" else "ALERT".
Proof. unfold formattedEventAction. now destruct (Status (check event)). Qed.

(** C10: the action label and the color are functions of the check status
    alone: two events with the same status get the same label and the same
    color, whatever their other fields hold. *)
Theorem status_determines_action_and_color (e1 e2 : Event) :
  Status (check e1) = Status (check e2) ->
  formattedEventAction e1 = formattedEventAction e2 /\
  messageColor e1 = messageColor e2.
Proof.
  intros H. unfold formattedEventAction, messageColor. now rewrite H.
Qed.

Lemma status_determines_action_and_color_witness :
  ev_a <> ev_b /\
  Status (check ev_a) = Status (check ev_b) /\
  formattedEventAction ev_a = formattedEventAction ev_b /\
  messageColor ev_a = messageColor ev_b.
Proof.
  split; [discriminate | split; [reflexivity |]].
  apply (status_determines_action_and_color ev_a ev_b). reflexivity.
Defined.

(** ** [checkArgs] *)

Lemma len_zero_iff (s : string) : len s = 0 <-> s = "".
Proof.
  unfold len. destruct s; simpl; split; intros H; try reflexivity; try discriminate; lia.
Qed.

Lemma checkArgs_webhook (env : Env) (cfg : HandlerConfig) (event : Event) :
  slackwebHookURL (fst (checkArgs env cfg event)) = webhook_after_overlay env cfg.
Proof.
  unfold checkArgs, webhook_after_overlay.
  destruct (String.eqb (Getenv env "SENSU_SLACK_WEBHOOK_URL") ""); cbn [negb];
    repeat match goal with
           | |- context [if ?b then _ else _] => destruct b
           end; reflexivity.
Qed.

Lemma checkArgs_sensuUIURL (env : Env) (cfg : HandlerConfig) (event : Event) :
  sensuUIURL (fst (checkArgs env cfg event)) = sensuUIURL cfg.
Proof.
  unfold checkArgs.
  repeat match goal with
         | |- context [if ?b then _ else _] => destruct b
         end; reflexivity.
Qed.

(** The error of [checkArgs], by the two URLs it leaves in the configuration. *)
Lemma checkArgs_error (env : Env) (cfg : HandlerConfig) (event : Event) :
  snd (checkArgs env cfg event) =
    if len (webhook_after_overlay env cfg) =? 0 then
      Some "--webhook-url or SLACK_WEBHOOK_URL environment variable is required"
    else if len (sensuUIURL cfg) =? 0 then
      Some "--ui-url or SENSU_UI_URL environment variable is required"
    else None.
Proof.
  unfold checkArgs, webhook_after_overlay.
  destruct (String.eqb (Getenv env "SENSU_SLACK_WEBHOOK_URL") ""); cbn [negb];
    repeat match goal with
           | |- context [if ?b then _ else _] =>
               lazymatch b with (_ && _)%bool => destruct b end
           end;
    cbn [slackwebHookURL sensuUIURL set_slackwebHookURL set_slackChannel
         set_slackUsername set_slackIconURL];
    repeat match goal with
           | |- context [if ?b then _ else _] => destruct b
           end; reflexivity.
Qed.

(** With the deprecated variable set, [checkArgs] ends with its value as the
    webhook URL, whatever was configured. *)
Lemma checkArgs_deprecated_webhook_wins (env : Env) (cfg : HandlerConfig) (event : Event) :
  Getenv env "SENSU_SLACK_WEBHOOK_URL" <> "" ->
  slackwebHookURL (fst (checkArgs env cfg event)) = Getenv env "SENSU_SLACK_WEBHOOK_URL".
Proof.
  intros H. rewrite checkArgs_webhook. unfold webhook_after_overlay.
  destruct (String.eqb_spec (Getenv env "SENSU_SLACK_WEBHOOK_URL") ""); [contradiction | reflexivity].
Qed.

(** C3 (the code at the failing input): the webhook URL is configured and the
    deprecated variable holds another URL; [checkArgs] succeeds and leaves the
    deprecated URL in the configuration, where a fallback would have kept the
    configured one. *)
Theorem checkArgs_deprecated_webhook_overrides :
  slackwebHookURL cfg_primary = "http://example.com/webhook" /\
  Getenv env_deprecated "SENSU_SLACK_WEBHOOK_URL" = "http://old.example.com/webhook" /\
  checkArgs env_deprecated cfg_primary ev_disk =
    (set_slackwebHookURL cfg_primary "http://old.example.com/webhook", None) /\
  webhook_fallback_only env_deprecated cfg_primary = "http://example.com/webhook".
Proof. repeat split. Qed.

(** C7: [checkArgs] returns no error exactly when the webhook URL (after the
    deprecated variable is laid over it) and the UI URL are both non-empty;
    an empty webhook URL gives the error naming [--webhook-url], an empty UI
    URL with a webhook URL the error naming [--ui-url]; and on either error
    the harness returns exit status 1 without any effect of message assembly
    or delivery. *)
Theorem checkArgs_requires_both_urls
  (EvalTemplate : string -> string -> Event -> string * option string)
  (PostWebhook : string -> slack.WebhookMessage -> option string)
  (env : Env) (cfg : HandlerConfig) (event : Event) :
  let w := webhook_after_overlay env cfg in
  let u := sensuUIURL cfg in
  let r := checkArgs env cfg event in
  slackwebHookURL (fst r) = w /\
  sensuUIURL (fst r) = u /\
  (snd r = None <-> w <> "" /\ u <> "") /\
  (w = "" ->
   snd r = Some "--webhook-url or SLACK_WEBHOOK_URL environment variable is required") /\
  (w <> "" -> u = "" ->
   snd r = Some "--ui-url or SENSU_UI_URL environment variable is required") /\
  (forall e, snd r = Some e ->
     goHandlerWorkflow EvalTemplate PostWebhook env cfg event =
       ([], Returned (1, Some ("error validating input: " ++ e)))).
Proof.
  intros w u r.
  split; [apply checkArgs_webhook | split; [apply checkArgs_sensuUIURL |]].
  assert (Hwf : forall e, snd r = Some e ->
            goHandlerWorkflow EvalTemplate PostWebhook env cfg event =
              ([], Returned (1, Some ("error validating input: " ++ e)))).
  { intros e He. unfold goHandlerWorkflow. fold r.
    destruct r as [cfg' err]. simpl in He. now rewrite He. }
  assert (Herr := checkArgs_error env cfg event). fold w u r in Herr.
  destruct (Z.eqb_spec (len w) 0) as [Hw | Hw];
    [| destruct (Z.eqb_spec (len u) 0) as [Hu | Hu]];
    rewrite len_zero_iff in *; rewrite Herr.
  - split; [split; [discriminate | tauto] |].
    split; [reflexivity |]. split; [contradiction |].
    intros e He. apply Hwf. now rewrite Herr.
  - split; [split; [discriminate | tauto] |].
    split; [contradiction |]. split; [reflexivity |].
    intros e He. apply Hwf. now rewrite Herr.
  - split; [split; [tauto | reflexivity] |].
    split; [contradiction |]. split; [contradiction |].
    intros e He. discriminate He.
Qed.

(** [TestCheckArgs], a missing webhook URL, a missing UI URL, and the harness
    stopping after a failed validation, all obtained from the theorem. *)
Lemma checkArgs_requires_both_urls_witness :
  snd (checkArgs [] cfg_primary ev_disk) = None /\
  snd (checkArgs [] config ev_disk) =
    Some "--webhook-url or SLACK_WEBHOOK_URL environment variable is required" /\
  snd (checkArgs env_deprecated config ev_disk) =
    Some "--ui-url or SENSU_UI_URL environment variable is required" /\
  goHandlerWorkflow failingTemplate (fun _ _ => None) [] config ev_disk =
    ([], Returned (1, Some "error validating input: --webhook-url or SLACK_WEBHOOK_URL environment variable is required")).
Proof.
  split; [| split; [| split]].
  - apply (proj1 (proj2 (proj2
      (checkArgs_requires_both_urls failingTemplate (fun _ _ => None) [] cfg_primary ev_disk)))).
    split; discriminate.
  - apply (proj1 (proj2 (proj2 (proj2
      (checkArgs_requires_both_urls failingTemplate (fun _ _ => None) [] config ev_disk))))).
    reflexivity.
  - apply (proj1 (proj2 (proj2 (proj2 (proj2
      (checkArgs_requires_both_urls failingTemplate (fun _ _ => None) env_deprecated config ev_disk)))))).
    + discriminate.
    + reflexivity.
  - apply (proj2 (proj2 (proj2 (proj2 (proj2
      (checkArgs_requires_both_urls failingTemplate (fun _ _ => None) [] config ev_disk)))))).
    reflexivity.
Defined.

(** ** [formattedMessage] and [messageAttachment] *)

(** The fallback text is defined when the slice at 100 is in range. *)
Lemma formattedMessage_returned (event : Event) :
  len (Output (check event)) <= 100 \/ 100 <= len (chomp (Output (check event))) ->
  formattedMessage event =
    Returned (formattedEventAction event ++ " - " ++ summary_spec event 100).
Proof.
  intros H. unfold formattedMessage.
  rewrite eventSummary_in_range; [reflexivity |].
  destruct H as [H | H]; [now left | right; lia].
Qed.

Example formattedMessage_test :
  formattedMessage (withStatus ev_disk 1) = Returned "ALERT - entity1/check1:disk is full".
Proof. reflexivity. Qed.

(** [messageAttachment] in one equation: the error of the template, if any,
    is printed; the attachment is returned unless the fallback text panics. *)
Lemma messageAttachment_eval
  (EvalTemplate : string -> string -> Event -> string * option string)
  (cfg : HandlerConfig) (event : Event) :
  messageAttachment EvalTemplate cfg event =
    (match snd (EvalTemplate "description" (slackDescriptionTemplate cfg) event) with
     | Some e => [Stdout (Name (pluginConfig cfg) ++ ": Error processing template: " ++ e)]
     | None => []
     end,
     match formattedMessage event with
     | Returned fallback =>
         Returned
           {| slack.Color := messageColor event;
              slack.Fallback := fallback;
              slack.Pretext := "";
              slack.Title := "";
              slack.TitleLink := "";
              slack.Text :=
                strings.ReplaceEscapedNewlines
                  (fst (EvalTemplate "description" (slackDescriptionTemplate cfg) event));
              slack.Fields := [];
              slack.Actions :=
                [ {| slack.actionName := "";
                     slack.actionText := "View in Sensu";
                     slack.actionStyle := "";
                     slack.actionType := "button";
                     slack.actionValue := "";
                     slack.actionURL := eventURL cfg event |} ];
              slack.MarkdownIn := ["text"];
              slack.Footer := "";
              slack.FooterIcon := "" |}
     | Panicked p => Panicked p
     end).
Proof.
  unfold messageAttachment.
  destruct (EvalTemplate "description" (slackDescriptionTemplate cfg) event) as [d [e|]];
    destruct (formattedMessage event); reflexivity.
Qed.

(** C4 (the code at the failing input, and where it does hold): a template
    error is printed and does not stop the assembly, but the fallback text
    then panics for the 99-byte line ended by carriage return and line feed,
    and no attachment is produced. For the events whose fallback text is
    defined, the attachment carries the fallback, the color and the
    normalised text of the failed evaluation. *)
Theorem messageAttachment_template_error
  (EvalTemplate : string -> string -> Event -> string * option string)
  (cfg : HandlerConfig) :
  messageAttachment failingTemplate cfg_primary ev_crlf =
    ([Stdout "sensu-slack-handler: Error processing template: template: description:1: unclosed action"],
     Panicked (SliceBoundsOutOfRange 100 99)) /\
  (forall event description e fallback,
     EvalTemplate "description" (slackDescriptionTemplate cfg) event = (description, Some e) ->
     formattedMessage event = Returned fallback ->
     exists attachment,
       messageAttachment EvalTemplate cfg event =
         ([Stdout (Name (pluginConfig cfg) ++ ": Error processing template: " ++ e)],
          Returned attachment) /\
       slack.Fallback attachment = fallback /\
       slack.Color attachment = messageColor event /\
       slack.Text attachment = strings.ReplaceEscapedNewlines description).
Proof.
  split; [reflexivity |].
  intros event description e fallback HE Hfb.
  rewrite messageAttachment_eval, HE, Hfb. simpl.
  eexists. split; [reflexivity |]. repeat split.
Qed.

(** A failed evaluation on the event of [TestEventSummary]. *)
Lemma messageAttachment_template_error_witness :
  exists attachment,
    messageAttachment failingTemplate cfg_primary ev_disk =
      ([Stdout "sensu-slack-handler: Error processing template: template: description:1: unclosed action"],
       Returned attachment) /\
    slack.Fallback attachment = "RESOLVED - entity1/check1:disk is full" /\
    slack.Color attachment = "#36a64f" /\
    slack.Text attachment = "".
Proof.
  exact (proj2 (messageAttachment_template_error failingTemplate cfg_primary)
           ev_disk "" "template: description:1: unclosed action"
           "RESOLVED - entity1/check1:disk is full" eq_refl eq_refl).
Defined.

(** C6 (the code at the failing input, and where it does hold): for the
    99-byte line ended by carriage return and line feed no attachment is
    returned, whatever the template gives. For the events whose fallback text
    is defined, the attachment has exactly one action, the button
    "View in Sensu" with the URL
    ["{uiBaseURL}/n/{namespace}/events/{entity}/{check}"], markdown enabled
    for ["text"] only, and no title, fields or footer. *)
Theorem messageAttachment_one_action
  (EvalTemplate : string -> string -> Event -> string * option string)
  (cfg : HandlerConfig) :
  snd (messageAttachment EvalTemplate cfg ev_crlf) =
    Panicked (SliceBoundsOutOfRange 100 99) /\
  (forall event fallback,
     formattedMessage event = Returned fallback ->
     exists attachment,
       snd (messageAttachment EvalTemplate cfg event) = Returned attachment /\
       slack.Actions attachment =
         [ {| slack.actionName := "";
              slack.actionText := "View in Sensu";
              slack.actionStyle := "";
              slack.actionType := "button";
              slack.actionValue := "";
              slack.actionURL :=
                sensuUIURL cfg ++ "/n/" ++ Namespace (entity event) ++ "/events/"
                  ++ EntityName (entity event) ++ "/" ++ CheckName (check event) |} ] /\
       slack.MarkdownIn attachment = ["text"] /\
       slack.Title attachment = "" /\
       slack.TitleLink attachment = "" /\
       slack.Pretext attachment = "" /\
       slack.Fields attachment = [] /\
       slack.Footer attachment = "" /\
       slack.FooterIcon attachment = "").
Proof.
  split.
  - rewrite messageAttachment_eval. reflexivity.
  - intros event fallback Hfb.
    rewrite messageAttachment_eval, Hfb. simpl.
    eexists. split; [reflexivity |]. repeat split.
Qed.

(** The action of the attachment of [TestSendMessage]. *)
Lemma messageAttachment_one_action_witness :
  exists attachment,
    snd (messageAttachment failingTemplate config (FixtureEvent "entity1" "check1")) =
      Returned attachment /\
    slack.Actions attachment =
      [ slack.mkAction "" "View in Sensu" "" "button" "" "/n/default/events/entity1/check1" ] /\
    slack.MarkdownIn attachment = ["text"] /\
    slack.Title attachment = "" /\
    slack.TitleLink attachment = "" /\
    slack.Pretext attachment = "" /\
    slack.Fields attachment = [] /\
    slack.Footer attachment = "" /\
    slack.FooterIcon attachment = "".
Proof.
  exact (proj2 (messageAttachment_one_action failingTemplate config)
           (FixtureEvent "entity1" "check1") "RESOLVED - entity1/check1:" eq_refl).
Defined.

(** ** More on [strings.Trim] and [chomp] *)

Lemma trimLeftASCII_absorb (small big s : string) :
  (forall c, strings.contains small c = true -> strings.contains big c = true) ->
  strings.trimLeftASCII (strings.trimLeftASCII s small) big = strings.trimLeftASCII s big.
Proof.
  intros Hsub. induction s as [|a s IH]; simpl; [reflexivity |].
  destruct (strings.contains small a) eqn:Ha.
  - rewrite (Hsub a Ha). exact IH.
  - reflexivity.
Qed.

Lemma trimRightASCII_absorb (small big s : string) :
  (forall c, strings.contains small c = true -> strings.contains big c = true) ->
  strings.trimRightASCII (strings.trimRightASCII s small) big = strings.trimRightASCII s big.
Proof.
  intros Hsub. induction s as [|a s IH]; simpl; [reflexivity |].
  destruct (strings.trimRightASCII s small) as [|y r] eqn:Hr.
  - simpl in IH. rewrite <- IH.
    destruct (strings.contains small a) eqn:Ha.
    + now rewrite (Hsub a Ha).
    + reflexivity.
  - change (strings.trimRightASCII (String a (String y r)) big)
      with (match strings.trimRightASCII (String y r) big with
            | EmptyString =>
                if strings.contains big a then EmptyString else String a EmptyString
            | String z q => String a (String z q)
            end).
    now rewrite IH.
Qed.

(** Trimming on the right and trimming on the left commute. *)
Lemma trimRight_trimLeft_commute (c d s : string) :
  strings.trimRightASCII (strings.trimLeftASCII s d) c =
  strings.trimLeftASCII (strings.trimRightASCII s c) d.
Proof.
  induction s as [|a s IH]; [reflexivity |].
  destruct (strings.contains d a) eqn:Hd.
  - change (strings.trimLeftASCII (String a s) d)
      with (if strings.contains d a then strings.trimLeftASCII s d else String a s).
    rewrite Hd, IH. simpl.
    destruct (strings.trimRightASCII s c) as [|y r].
    + destruct (strings.contains c a); simpl; [reflexivity | now rewrite Hd].
    + change (strings.trimLeftASCII (String a (String y r)) d)
        with (if strings.contains d a
              then strings.trimLeftASCII (String y r) d
              else String a (String y r)).
      now rewrite Hd.
  - change (strings.trimLeftASCII (String a s) d)
      with (if strings.contains d a then strings.trimLeftASCII s d else String a s).
    rewrite Hd. simpl.
    destruct (strings.trimRightASCII s c) as [|y r].
    + destruct (strings.contains c a); simpl; [reflexivity | now rewrite Hd].
    + simpl. now rewrite Hd.
Qed.

Lemma Trim_absorb (small big s : string) :
  (forall c, strings.contains small c = true -> strings.contains big c = true) ->
  strings.Trim (strings.Trim s small) big = strings.Trim s big.
Proof.
  intros Hsub. unfold strings.Trim.
  rewrite trimRight_trimLeft_commute.
  rewrite (trimLeftASCII_absorb small big _ Hsub).
  now rewrite (trimRightASCII_absorb small big _ Hsub).
Qed.

(** X1: the two inner [strings.Trim] calls of [chomp] change nothing: [chomp]
    is the single call [strings.Trim(s, "\r\n")]. *)
Theorem chomp_is_single_Trim (s : string) : chomp s = strings.Trim s lit_rn.
Proof.
  unfold chomp.
  rewrite (Trim_absorb lit_r lit_rn _ lit_r_sub).
  apply (Trim_absorb lit_n lit_rn _ lit_n_sub).
Qed.

(** X2: the strings [chomp] leaves unchanged are exactly those that neither
    start nor end with a line feed or a carriage return. *)
Theorem chomp_fixed_points (s : string) : chomp s = s <-> clean lit_rn s.
Proof.
  split.
  - intros H. rewrite <- H. apply chomp_clean.
  - apply chomp_id.
Qed.

Lemma all_in_clean_empty (cutset s : string) :
  strings.all_in cutset s = true -> clean cutset s -> s = "".
Proof.
  destruct s as [|a s]; [reflexivity |].
  simpl. rewrite andb_true_iff. intros [Ha _] [Hh _].
  rewrite (Hh a eq_refl) in Ha. discriminate Ha.
Qed.

(** X3: [chomp] returns the empty string exactly for the strings made of line
    feeds and carriage returns only (the empty string among them). *)
Theorem chomp_empty_iff (s : string) :
  chomp s = "" <-> strings.all_in lit_rn s = true.
Proof.
  split.
  - intros H. destruct (chomp_decomp s) as [a [b [Hs [Ha Hb]]]].
    rewrite H in Hs. rewrite Hs. simpl. now rewrite all_in_append, Ha, Hb.
  - intros H. apply (all_in_clean_empty lit_rn); [| apply chomp_clean].
    destruct (chomp_decomp s) as [a [b [Hs [Ha Hb]]]].
    rewrite Hs in H. rewrite !all_in_append in H.
    rewrite !andb_true_iff in H. tauto.
Qed.

(** ** More on [eventSummary], [formattedMessage] and the labels *)

Lemma substring_all (s : string) : substring 0 (String.length s) s = s.
Proof. induction s as [|a s IH]; simpl; [reflexivity | now rewrite IH]. Qed.

Lemma eventSummary_untruncated (event : Event) (maxLength : Z) :
  len (Output (check event)) <= maxLength ->
  eventSummary event maxLength =
    Returned (eventKey event ++ ":" ++ chomp (Output (check event))).
Proof.
  intros H. unfold eventSummary.
  destruct (Z.gtb_spec (len (Output (check event))) maxLength); [lia | reflexivity].
Qed.

Lemma eventSummary_len_le (event : Event) (maxLength : Z) (r : string) :
  eventSummary event maxLength = Returned r ->
  len r <= len (eventKey event) + maxLength + 4.
Proof.
  intros Hr.
  destruct (Z_lt_le_dec maxLength (len (Output (check event)))) as [Hlt | Hle].
  - destruct (eventSummary_truncation_bound event maxLength r Hlt Hr)
      as [kept [rest [Heq [_ Hlen]]]].
    rewrite Heq, !len_append, Hlen. change (len ":") with 1. change (len "...") with 3. lia.
  - rewrite (eventSummary_untruncated event maxLength Hle) in Hr.
    injection Hr as <-. pose proof (len_chomp_le (Output (check event))).
    rewrite len_append. unfold len in *. cbn [String.length]. lia.
Qed.

(** X4: whatever [eventSummary] returns is at most [maxLength + 4] bytes
    longer than the event key: the colon, at most [maxLength] bytes of output
    and the three dots. *)
Theorem eventSummary_length_bound (event : Event) (maxLength : Z) (r : string) :
  eventSummary event maxLength = Returned r ->
  len r <= len (eventKey event) + maxLength + 4.
Proof. apply eventSummary_len_le. Qed.

Lemma eventSummary_length_bound_witness :
  eventSummary ev_disk 5 = Returned "entity1/check1:disk ..." /\
  len "entity1/check1:disk ..." <= len (eventKey ev_disk) + 5 + 4.
Proof.
  split; [reflexivity |].
  apply (eventSummary_length_bound ev_disk 5). reflexivity.
Defined.

(** X5: an output that is longer than [maxLength] only because of the line
    endings around it is still marked as cut: when [maxLength] is the length
    of the output after [chomp] and the untrimmed output is longer, the
    summary is the whole trimmed output followed by the three dots. *)
Theorem eventSummary_dots_without_cut (event : Event) :
  len (chomp (Output (check event))) < len (Output (check event)) ->
  eventSummary event (len (chomp (Output (check event)))) =
    Returned (eventKey event ++ ":" ++ chomp (Output (check event)) ++ "...").
Proof.
  intros H. unfold eventSummary.
  destruct (Z.gtb_spec (len (Output (check event)))
              (len (chomp (Output (check event))))) as [_ | Hle]; [| lia].
  rewrite slice_to_returned by (pose proof (len_nonneg (chomp (Output (check event)))); lia).
  unfold len. rewrite Nat2Z.id, substring_all. reflexivity.
Qed.

Lemma eventSummary_dots_without_cut_witness :
  chomp (Output (check ev_newline)) = "disk" /\
  eventSummary ev_newline 4 = Returned "entity1/check1:disk...".
Proof.
  split; [reflexivity |].
  apply (eventSummary_dots_without_cut ev_newline). vm_compute. reflexivity.
Defined.

Lemma formattedMessage_out_of_range (event : Event) :
  100 < len (Output (check event)) ->
  len (chomp (Output (check event))) < 100 ->
  formattedMessage event =
    Panicked (SliceBoundsOutOfRange 100 (len (chomp (Output (check event))))).
Proof.
  intros Hlong Hshort. unfold formattedMessage, eventSummary.
  destruct (Z.gtb_spec (len (Output (check event))) 100) as [_ | Hle]; [| lia].
  rewrite slice_to_panicked by (right; exact Hshort). reflexivity.
Qed.

(** X6: for every event whose check output is longer than 100 bytes while
    the output after [chomp] is shorter than 100 bytes, [formattedMessage]
    panics with slice bounds out of range, the bound being 100 and the length
    that of the trimmed output. *)
Theorem formattedMessage_slice_panic (event : Event) :
  100 < len (Output (check event)) ->
  len (chomp (Output (check event))) < 100 ->
  formattedMessage event =
    Panicked (SliceBoundsOutOfRange 100 (len (chomp (Output (check event))))).
Proof. apply formattedMessage_out_of_range. Qed.

Lemma formattedMessage_slice_panic_witness :
  len (Output (check ev_crlf)) = 101 /\
  formattedMessage ev_crlf = Panicked (SliceBoundsOutOfRange 100 99).
Proof.
  split; [reflexivity |].
  apply (formattedMessage_slice_panic ev_crlf); vm_compute; reflexivity.
Defined.

(** X7: the fallback text [formattedMessage] returns is at most 115 bytes
    longer than the event key. *)
Theorem formattedMessage_length_bound (event : Event) (fallback : string) :
  formattedMessage event = Returned fallback ->
  len fallback <= len (eventKey event) + 115.
Proof.
  unfold formattedMessage.
  destruct (eventSummary event 100) as [r | p] eqn:Hr; [| discriminate].
  intros [= <-]. apply eventSummary_len_le in Hr.
  assert (len (formattedEventAction event) <= 8).
  { rewrite formattedEventAction_cases.
    destruct (Status (check event) =? 0); vm_compute; discriminate. }
  rewrite len_append. unfold len in *. cbn [String.length append]. lia.
Qed.

Lemma formattedMessage_length_bound_witness :
  formattedMessage (withStatus ev_disk 1) = Returned "ALERT - entity1/check1:disk is full" /\
  len "ALERT - entity1/check1:disk is full" <= len (eventKey (withStatus ev_disk 1)) + 115.
Proof.
  split; [reflexivity |].
  apply (formattedMessage_length_bound (withStatus ev_disk 1)). reflexivity.
Defined.

(** X8: the label and the color agree on what is resolved: the label is
    [RESOLVED] exactly when the status is 0, which is exactly when the color
    is the green [#36a64f]; every other status is an [ALERT]. *)
Theorem action_and_color_agree (event : Event) :
  (formattedEventAction event = "RESOLVED" <-> Status (check event) = 0) /\
  (messageColor event = "#36a64f" <-> Status (check event) = 0) /\
  (Status (check event) <> 0 -> formattedEventAction event = "ALERT").
Proof.
  unfold formattedEventAction, messageColor.
  destruct (Status (check event)) as [|p|p].
  - repeat split; intros; try reflexivity; congruence.
  - repeat split; intros; try discriminate; try reflexivity.
    destruct p as [[p|p|]|[p|p|]|]; discriminate.
  - repeat split; intros; try discriminate; reflexivity.
Qed.

Lemma action_and_color_agree_witness :
  formattedEventAction ev_a = "ALERT" /\ formattedEventAction ev_disk = "RESOLVED".
Proof.
  split.
  - apply (proj2 (proj2 (action_and_color_agree ev_a))). discriminate.
  - apply (proj2 (proj1 (action_and_color_agree ev_disk))). reflexivity.
Defined.

(** X9: the event key and the deep link do not escape the slash: moving a
    slash-separated part from the entity name to the check name changes
    neither, so different events can share a key and a URL. *)
Theorem eventKey_no_escaping (cfg : HandlerConfig) (ts : Z) (ns a b c : string)
  (chk : Check) :
  let e1 := mkEvent ts (mkEntity (a ++ "/" ++ b) ns)
              (mkCheck c (Status chk) (Output chk) (Occurrences chk) (Annotations chk)) in
  let e2 := mkEvent ts (mkEntity a ns)
              (mkCheck (b ++ "/" ++ c) (Status chk) (Output chk) (Occurrences chk)
                 (Annotations chk)) in
  eventKey e1 = eventKey e2 /\ eventURL cfg e1 = eventURL cfg e2.
Proof.
  unfold eventKey, eventURL. simpl.
  split; [now rewrite !append_assoc |].
  do 3 f_equal. now rewrite !append_assoc.
Qed.

(** ** More on [checkArgs] *)

Ltac config_fields :=
  cbn [negb fst snd
       set_slackwebHookURL set_slackChannel set_slackUsername set_slackIconURL
       pluginConfig sensuUIURL slackwebHookURL slackChannel slackUsername
       slackIconURL slackDescriptionTemplate slackAlertCritical].

(** The configuration [checkArgs] leaves behind, field by field. *)
Lemma checkArgs_config (env : Env) (cfg : HandlerConfig) (event : Event) :
  fst (checkArgs env cfg event) =
    mkHandlerConfig (pluginConfig cfg) (sensuUIURL cfg)
      (webhook_after_overlay env cfg)
      (overlay_default env "SENSU_SLACK_CHANNEL" (slackChannel cfg) defaultChannel)
      (overlay_default env "SENSU_SLACK_USERNAME" (slackUsername cfg) defaultUsername)
      (overlay_default env "SENSU_SLACK_ICON_URL" (slackIconURL cfg) defaultIconURL)
      (slackDescriptionTemplate cfg) (slackAlertCritical cfg).
Proof.
  destruct cfg as [pc ui wh ch us ic tp al].
  unfold checkArgs, webhook_after_overlay, overlay_default. config_fields.
  destruct (String.eqb (Getenv env "SENSU_SLACK_WEBHOOK_URL") ""); config_fields;
    destruct (negb (String.eqb (Getenv env "SENSU_SLACK_CHANNEL") "")
              && String.eqb ch defaultChannel); config_fields;
    destruct (negb (String.eqb (Getenv env "SENSU_SLACK_USERNAME") "")
              && String.eqb us defaultUsername); config_fields;
    destruct (negb (String.eqb (Getenv env "SENSU_SLACK_ICON_URL") "")
              && String.eqb ic defaultIconURL); config_fields;
    repeat match goal with
           | |- context [if ?b then _ else _] => destruct b
           end; reflexivity.
Qed.

Lemma overlay_default_unset (env : Env) (key current default : string) :
  Getenv env key = "" -> overlay_default env key current default = current.
Proof. intros H. unfold overlay_default. now rewrite H. Qed.

Lemma overlay_default_configured (env : Env) (key current default : string) :
  current <> default -> overlay_default env key current default = current.
Proof.
  intros H. unfold overlay_default.
  destruct (String.eqb_spec current default); [contradiction |].
  now rewrite andb_false_r.
Qed.

Lemma overlay_default_applies (env : Env) (key default : string) :
  Getenv env key <> "" -> overlay_default env key default default = Getenv env key.
Proof.
  intros H. unfold overlay_default.
  destruct (String.eqb_spec (Getenv env key) ""); [contradiction |].
  now rewrite String.eqb_refl.
Qed.

Lemma overlay_default_idem (env : Env) (key current default : string) :
  overlay_default env key (overlay_default env key current default) default =
  overlay_default env key current default.
Proof.
  unfold overlay_default.
  destruct (negb (String.eqb (Getenv env key) "") && String.eqb current default) eqn:E.
  - now destruct (negb (String.eqb (Getenv env key) "")
                  && String.eqb (Getenv env key) default).
  - now rewrite E.
Qed.

(** X10: [checkArgs] never touches the plugin description, the UI URL, the
    description template or the critical-alert flag, whatever the environment
    holds and whether or not it returns an error. *)
Theorem checkArgs_frame (env : Env) (cfg : HandlerConfig) (event : Event) :
  pluginConfig (fst (checkArgs env cfg event)) = pluginConfig cfg /\
  sensuUIURL (fst (checkArgs env cfg event)) = sensuUIURL cfg /\
  slackDescriptionTemplate (fst (checkArgs env cfg event)) = slackDescriptionTemplate cfg /\
  slackAlertCritical (fst (checkArgs env cfg event)) = slackAlertCritical cfg.
Proof. rewrite checkArgs_config. repeat split. Qed.

(** X11: with none of the four deprecated variables set, [checkArgs] leaves
    the whole configuration as it found it. *)
Theorem checkArgs_without_deprecated_env (env : Env) (cfg : HandlerConfig) (event : Event) :
  Getenv env "SENSU_SLACK_WEBHOOK_URL" = "" ->
  Getenv env "SENSU_SLACK_CHANNEL" = "" ->
  Getenv env "SENSU_SLACK_USERNAME" = "" ->
  Getenv env "SENSU_SLACK_ICON_URL" = "" ->
  fst (checkArgs env cfg event) = cfg.
Proof.
  intros Hw Hc Hu Hi. rewrite checkArgs_config.
  rewrite !overlay_default_unset by assumption.
  unfold webhook_after_overlay. rewrite Hw. simpl. now destruct cfg.
Qed.

Lemma checkArgs_without_deprecated_env_witness :
  fst (checkArgs [("SLACK_WEBHOOK_URL", "http://example.com/webhook")] cfg_custom ev_disk)
  = cfg_custom.
Proof.
  apply (checkArgs_without_deprecated_env
           [("SLACK_WEBHOOK_URL", "http://example.com/webhook")] cfg_custom ev_disk);
    reflexivity.
Defined.

(** X12: the deprecated variables for the channel, the user name and the icon
    URL are fallbacks: an option that differs from its compiled-in default
    keeps its value, whatever the deprecated variable holds. *)
Theorem checkArgs_keeps_configured_options
  (env : Env) (cfg : HandlerConfig) (event : Event) :
  (slackChannel cfg <> defaultChannel ->
   slackChannel (fst (checkArgs env cfg event)) = slackChannel cfg) /\
  (slackUsername cfg <> defaultUsername ->
   slackUsername (fst (checkArgs env cfg event)) = slackUsername cfg) /\
  (slackIconURL cfg <> defaultIconURL ->
   slackIconURL (fst (checkArgs env cfg event)) = slackIconURL cfg).
Proof.
  rewrite checkArgs_config. simpl.
  repeat split; intros H; now apply overlay_default_configured.
Qed.

Lemma checkArgs_keeps_configured_options_witness :
  slackChannel (fst (checkArgs env_all_deprecated cfg_custom ev_disk)) = "#ops" /\
  slackUsername (fst (checkArgs env_all_deprecated cfg_custom ev_disk)) = "monitor" /\
  slackIconURL (fst (checkArgs env_all_deprecated cfg_custom ev_disk))
  = "http://example.com/icon.png".
Proof.
  split; [| split].
  - apply (proj1 (checkArgs_keeps_configured_options env_all_deprecated cfg_custom ev_disk)).
    discriminate.
  - apply (proj1 (proj2
      (checkArgs_keeps_configured_options env_all_deprecated cfg_custom ev_disk))).
    discriminate.
  - apply (proj2 (proj2
      (checkArgs_keeps_configured_options env_all_deprecated cfg_custom ev_disk))).
    discriminate.
Defined.

(** X13: an option that still has its compiled-in default takes the value of
    its deprecated variable when that variable is set. *)
Theorem checkArgs_overlays_defaults (env : Env) (cfg : HandlerConfig) (event : Event) :
  (slackChannel cfg = defaultChannel -> Getenv env "SENSU_SLACK_CHANNEL" <> "" ->
   slackChannel (fst (checkArgs env cfg event)) = Getenv env "SENSU_SLACK_CHANNEL") /\
  (slackUsername cfg = defaultUsername -> Getenv env "SENSU_SLACK_USERNAME" <> "" ->
   slackUsername (fst (checkArgs env cfg event)) = Getenv env "SENSU_SLACK_USERNAME") /\
  (slackIconURL cfg = defaultIconURL -> Getenv env "SENSU_SLACK_ICON_URL" <> "" ->
   slackIconURL (fst (checkArgs env cfg event)) = Getenv env "SENSU_SLACK_ICON_URL").
Proof.
  rewrite checkArgs_config. simpl.
  repeat split; intros -> H; now apply overlay_default_applies.
Qed.

Lemma checkArgs_overlays_defaults_witness :
  slackChannel (fst (checkArgs env_all_deprecated cfg_primary ev_disk)) = "#legacy" /\
  slackUsername (fst (checkArgs env_all_deprecated cfg_primary ev_disk)) = "legacy-bot" /\
  slackIconURL (fst (checkArgs env_all_deprecated cfg_primary ev_disk))
  = "http://old.example.com/icon.png".
Proof.
  split; [| split].
  - apply (proj1 (checkArgs_overlays_defaults env_all_deprecated cfg_primary ev_disk));
      [reflexivity | discriminate].
  - apply (proj1 (proj2 (checkArgs_overlays_defaults env_all_deprecated cfg_primary ev_disk)));
      [reflexivity | discriminate].
  - apply (proj2 (proj2 (checkArgs_overlays_defaults env_all_deprecated cfg_primary ev_disk)));
      [reflexivity | discriminate].
Defined.

Lemma webhook_after_overlay_idem (env : Env) (cfg : HandlerConfig) :
  webhook_after_overlay env (set_slackwebHookURL cfg (webhook_after_overlay env cfg))
  = webhook_after_overlay env cfg.
Proof.
  unfold webhook_after_overlay. simpl.
  now destruct (String.eqb (Getenv env "SENSU_SLACK_WEBHOOK_URL") "").
Qed.

(** X14: [checkArgs] is idempotent: run again in the same environment on the
    configuration it left behind, it leaves the same configuration and
    returns the same error. *)
Theorem checkArgs_idempotent (env : Env) (cfg : HandlerConfig) (event event' : Event) :
  checkArgs env (fst (checkArgs env cfg event)) event' = checkArgs env cfg event.
Proof.
  assert (Hw : webhook_after_overlay env (fst (checkArgs env cfg event))
               = webhook_after_overlay env cfg).
  { rewrite checkArgs_config. apply (webhook_after_overlay_idem env cfg). }
  rewrite (surjective_pairing (checkArgs env (fst (checkArgs env cfg event)) event')).
  rewrite (surjective_pairing (checkArgs env cfg event)) at 3.
  f_equal.
  - rewrite (checkArgs_config env (fst (checkArgs env cfg event))), Hw.
    rewrite !checkArgs_config. simpl. now rewrite !overlay_default_idem.
  - rewrite !checkArgs_error, Hw. now rewrite checkArgs_sensuUIURL.
Qed.

(** ** More on [messageAttachment] and [sendMessage] *)

(** What the replacement leaves: no escaped newline, a first byte that is an
    [n] only if the input started with one, and no more bytes than before. *)
Lemma ReplaceEscapedNewlines_spec (n : nat) :
  forall s, (String.length s <= n)%nat ->
    has_escaped_newline (strings.ReplaceEscapedNewlines s) = false /\
    (head (strings.ReplaceEscapedNewlines s) = Some "n"%char -> head s = Some "n"%char) /\
    (String.length (strings.ReplaceEscapedNewlines s) <= String.length s)%nat.
Proof.
  induction n as [|n IH]; intros s Hs.
  - destruct s; [repeat split; auto | simpl in Hs; lia].
  - destruct s as [|c [|d s]].
    + repeat split; auto.
    + repeat split; auto.
    + change (strings.ReplaceEscapedNewlines (String c (String d s)))
        with (if Ascii.eqb c "\"%char && Ascii.eqb d "n"%char
              then String LF (strings.ReplaceEscapedNewlines s)
              else String c (strings.ReplaceEscapedNewlines (String d s))).
      simpl in Hs.
      destruct (Ascii.eqb c "\"%char && Ascii.eqb d "n"%char) eqn:E.
      * destruct (IH s) as [H1 [H2 H3]]; [lia |].
        split; [| split].
        -- destruct (strings.ReplaceEscapedNewlines s) as [|e r] eqn:Er; [reflexivity |].
           change (has_escaped_newline (String LF (String e r)))
             with ((Ascii.eqb LF "\"%char && Ascii.eqb e "n"%char)
                   || has_escaped_newline (String e r)).
           rewrite H1. reflexivity.
        -- simpl. intros H. discriminate H.
        -- simpl. lia.
      * destruct (IH (String d s)) as [H1 [H2 H3]]; [simpl; lia |].
        split; [| split].
        -- destruct (strings.ReplaceEscapedNewlines (String d s)) as [|e r] eqn:Er;
             [reflexivity |].
           change (has_escaped_newline (String c (String e r)))
             with ((Ascii.eqb c "\"%char && Ascii.eqb e "n"%char)
                   || has_escaped_newline (String e r)).
           rewrite H1, orb_false_r.
           destruct (Ascii.eqb_spec e "n"%char) as [-> | Hne];
             [| now rewrite andb_false_r].
           specialize (H2 eq_refl). simpl in H2. injection H2 as ->.
           rewrite Ascii.eqb_refl, andb_true_r in E. rewrite E. reflexivity.
        -- simpl. intros H. exact H.
        -- simpl in *. lia.
Qed.

Lemma ReplaceEscapedNewlines_without (s : string) :
  strings.contains s "\"%char = false -> strings.ReplaceEscapedNewlines s = s.
Proof.
  induction s as [|c s IH]; [reflexivity |].
  cbn [strings.contains]. rewrite orb_false_iff. intros [Hc Hs].
  destruct s as [|d s]; [reflexivity |].
  change (strings.ReplaceEscapedNewlines (String c (String d s)))
    with (if Ascii.eqb c "\"%char && Ascii.eqb d "n"%char
          then String LF (strings.ReplaceEscapedNewlines s)
          else String c (strings.ReplaceEscapedNewlines (String d s))).
  rewrite Ascii.eqb_sym, Hc. simpl andb. cbv iota. now rewrite (IH Hs).
Qed.

(** X15: the text of every attachment [messageAttachment] returns holds no
    escaped newline (the two bytes backslash, [n]) and is no longer than the
    text the template evaluated to; a rendered text without a backslash is
    used as it is. *)
Theorem messageAttachment_text_normalised
  (EvalTemplate : string -> string -> Event -> string * option string)
  (cfg : HandlerConfig) (event : Event) (attachment : slack.Attachment) :
  snd (messageAttachment EvalTemplate cfg event) = Returned attachment ->
  let rendered := fst (EvalTemplate "description" (slackDescriptionTemplate cfg) event) in
  has_escaped_newline (slack.Text attachment) = false /\
  len (slack.Text attachment) <= len rendered /\
  (strings.contains rendered "\"%char = false -> slack.Text attachment = rendered).
Proof.
  rewrite messageAttachment_eval. simpl.
  destruct (formattedMessage event) as [fb | p]; [| discriminate].
  intros [= <-]. simpl.
  destruct (ReplaceEscapedNewlines_spec _ _ (Nat.le_refl
              (String.length (fst (EvalTemplate "description"
                                     (slackDescriptionTemplate cfg) event)))))
    as [H1 [_ H3]].
  split; [exact H1 | split; [unfold len; lia |]].
  apply ReplaceEscapedNewlines_without.
Qed.

Lemma messageAttachment_text_normalised_witness :
  exists attachment,
    snd (messageAttachment okTemplate cfg_primary ev_disk) = Returned attachment /\
    slack.Text attachment = "*OK* on entity1" ++ lit_n ++ "disk is full" /\
    has_escaped_newline (slack.Text attachment) = false.
Proof.
  eexists. split; [reflexivity |]. split; [reflexivity |].
  apply (messageAttachment_text_normalised okTemplate cfg_primary ev_disk). reflexivity.
Defined.

(** X16: when the template evaluates without error, [messageAttachment]
    writes nothing to standard output, whether it then returns or panics. *)
Theorem messageAttachment_silent_on_success
  (EvalTemplate : string -> string -> Event -> string * option string)
  (cfg : HandlerConfig) (event : Event) :
  snd (EvalTemplate "description" (slackDescriptionTemplate cfg) event) = None ->
  fst (messageAttachment EvalTemplate cfg event) = [].
Proof. intros H. rewrite messageAttachment_eval. simpl. now rewrite H. Qed.

Lemma messageAttachment_silent_on_success_witness :
  fst (messageAttachment okTemplate cfg_primary ev_crlf) = [] /\
  fst (messageAttachment okTemplate cfg_primary ev_disk) = [].
Proof.
  split.
  - apply (messageAttachment_silent_on_success okTemplate cfg_primary ev_crlf). reflexivity.
  - apply (messageAttachment_silent_on_success okTemplate cfg_primary ev_disk). reflexivity.
Defined.

Lemma posts_app (t1 t2 : list effect) : posts (t1 ++ t2)%list = (posts t1 ++ posts t2)%list.
Proof.
  induction t1 as [|e t1 IH]; [reflexivity |].
  destruct e; simpl; [exact IH | now rewrite IH].
Qed.

Lemma messageAttachment_posts
  (EvalTemplate : string -> string -> Event -> string * option string)
  (cfg : HandlerConfig) (event : Event) :
  posts (fst (messageAttachment EvalTemplate cfg event)) = [].
Proof.
  rewrite messageAttachment_eval. simpl.
  now destruct (snd (EvalTemplate "description" (slackDescriptionTemplate cfg) event)).
Qed.

(** [sendMessage] in one equation, on the result of [messageAttachment]. *)
Lemma sendMessage_eval
  (EvalTemplate : string -> string -> Event -> string * option string)
  (PostWebhook : string -> slack.WebhookMessage -> option string)
  (cfg : HandlerConfig) (event : Event) :
  sendMessage EvalTemplate PostWebhook cfg event =
    match messageAttachment EvalTemplate cfg event with
    | (t, Panicked p) => (t, Panicked p)
    | (t, Returned attachment) =>
        let hookmsg :=
          slack.mkWebhookMessage (slackUsername cfg) (slackIconURL cfg)
            (slackChannel cfg) [attachment] in
        match PostWebhook (slackwebHookURL cfg) hookmsg with
        | Some e =>
            ((t ++ [HTTPPost (slackwebHookURL cfg) hookmsg])%list,
             Returned (Some ("Failed to send Slack message: " ++ e)))
        | None =>
            ((t ++ [HTTPPost (slackwebHookURL cfg) hookmsg; Stdout (confirmation cfg)])%list,
             Returned None)
        end
    end.
Proof.
  unfold sendMessage, bind.
  destruct (messageAttachment EvalTemplate cfg event) as [t [attachment | p]];
    [| reflexivity].
  cbv zeta.
  destruct (PostWebhook (slackwebHookURL cfg)
              (slack.mkWebhookMessage (slackUsername cfg) (slackIconURL cfg)
                 (slackChannel cfg) [attachment])); reflexivity.
Qed.

(** X17: when [messageAttachment] returns, [sendMessage] makes exactly one
    webhook POST: to the configured webhook URL, with the configured user
    name, icon URL and channel and with that attachment as the only one. *)
Theorem sendMessage_posts_once
  (EvalTemplate : string -> string -> Event -> string * option string)
  (PostWebhook : string -> slack.WebhookMessage -> option string)
  (cfg : HandlerConfig) (event : Event) (attachment : slack.Attachment) :
  snd (messageAttachment EvalTemplate cfg event) = Returned attachment ->
  posts (fst (sendMessage EvalTemplate PostWebhook cfg event)) =
    [ (slackwebHookURL cfg,
       {| slack.Username := slackUsername cfg;
          slack.IconURL := slackIconURL cfg;
          slack.Channel := slackChannel cfg;
          slack.Attachments := [attachment] |}) ].
Proof.
  intros Ha. rewrite sendMessage_eval.
  pose proof (messageAttachment_posts EvalTemplate cfg event) as Hp.
  destruct (messageAttachment EvalTemplate cfg event) as [t o].
  simpl in Ha, Hp. subst o. cbv zeta.
  destruct (PostWebhook _ _); simpl; rewrite posts_app, Hp; reflexivity.
Qed.

Lemma sendMessage_posts_once_witness :
  exists attachment,
    snd (messageAttachment okTemplate cfg_primary ev_disk) = Returned attachment /\
    posts (fst (sendMessage okTemplate (fun _ _ => None) cfg_primary ev_disk)) =
      [ ("http://example.com/webhook",
         slack.mkWebhookMessage "sensu" "https://www.sensu.io/img/sensu-logo.png"
           "#general" [attachment]) ].
Proof.
  eexists. split; [reflexivity |].
  apply (sendMessage_posts_once okTemplate (fun _ _ => None) cfg_primary ev_disk).
  reflexivity.
Defined.

(** X18: for every event whose check output is longer than 100 bytes while
    the output after [chomp] is shorter than 100 bytes, [sendMessage] panics
    with slice bounds out of range before any webhook POST is made, whatever
    the template evaluates to and whatever the webhook would answer. *)
Theorem sendMessage_slice_panic
  (EvalTemplate : string -> string -> Event -> string * option string)
  (PostWebhook : string -> slack.WebhookMessage -> option string)
  (cfg : HandlerConfig) (event : Event) :
  100 < len (Output (check event)) ->
  len (chomp (Output (check event))) < 100 ->
  snd (sendMessage EvalTemplate PostWebhook cfg event) =
    Panicked (SliceBoundsOutOfRange 100 (len (chomp (Output (check event))))) /\
  posts (fst (sendMessage EvalTemplate PostWebhook cfg event)) = [].
Proof.
  intros Hlong Hshort.
  pose proof (messageAttachment_posts EvalTemplate cfg event) as Hp.
  rewrite sendMessage_eval.
  rewrite messageAttachment_eval in *.
  rewrite (formattedMessage_out_of_range event Hlong Hshort) in *.
  simpl in Hp |- *. split; [reflexivity | exact Hp].
Qed.

Lemma sendMessage_slice_panic_witness :
  snd (sendMessage okTemplate (fun _ _ => None) cfg_primary ev_crlf) =
    Panicked (SliceBoundsOutOfRange 100 99) /\
  posts (fst (sendMessage okTemplate (fun _ _ => None) cfg_primary ev_crlf)) = [].
Proof.
  apply (sendMessage_slice_panic okTemplate (fun _ _ => None) cfg_primary ev_crlf);
    vm_compute; reflexivity.
Defined.

(** X19: the result of [sendMessage] follows the POST. When [PostWebhook]
    returns an error, [sendMessage] returns it behind the prefix
    [Failed to send Slack message: ], the POST is the last effect and no
    confirmation is printed; when it returns none, the confirmation naming
    the channel is printed after the POST and [sendMessage] returns nil. *)
Theorem sendMessage_result
  (EvalTemplate : string -> string -> Event -> string * option string)
  (PostWebhook : string -> slack.WebhookMessage -> option string)
  (cfg : HandlerConfig) (event : Event) (t : list effect)
  (attachment : slack.Attachment) :
  messageAttachment EvalTemplate cfg event = (t, Returned attachment) ->
  let url := slackwebHookURL cfg in
  let hookmsg :=
    slack.mkWebhookMessage (slackUsername cfg) (slackIconURL cfg)
      (slackChannel cfg) [attachment] in
  (forall e, PostWebhook url hookmsg = Some e ->
     sendMessage EvalTemplate PostWebhook cfg event =
       ((t ++ [HTTPPost url hookmsg])%list,
        Returned (Some ("Failed to send Slack message: " ++ e)))) /\
  (PostWebhook url hookmsg = None ->
     sendMessage EvalTemplate PostWebhook cfg event =
       ((t ++ [HTTPPost url hookmsg;
               Stdout ("Notification sent to Slack channel " ++ slackChannel cfg ++ lit_n)])%list,
        Returned None)).
Proof.
  intros Ha url hookmsg. rewrite sendMessage_eval, Ha. cbv zeta.
  fold url hookmsg.
  split; [intros e He | intros He]; rewrite He; reflexivity.
Qed.

Lemma sendMessage_result_witness :
  snd (sendMessage okTemplate (fun _ _ => Some "slack server error: 500") cfg_primary ev_disk)
  = Returned (Some "Failed to send Slack message: slack server error: 500") /\
  snd (sendMessage okTemplate (fun _ _ => None) cfg_primary ev_disk) = Returned None.
Proof.
  split.
  - rewrite (proj1 (sendMessage_result okTemplate
                      (fun _ _ => Some "slack server error: 500") cfg_primary ev_disk
                      _ _ eq_refl)
               "slack server error: 500" eq_refl).
    reflexivity.
  - rewrite (proj2 (sendMessage_result okTemplate (fun _ _ => None) cfg_primary ev_disk
                      _ _ eq_refl) eq_refl).
    reflexivity.
Defined.

(** X20: after a validation without error, every POST of [sendMessage] on the
    configuration [checkArgs] left goes to a non-empty URL: the deprecated
    variable when it is set, the configured webhook URL otherwise. *)
Theorem validated_post_url
  (EvalTemplate : string -> string -> Event -> string * option string)
  (PostWebhook : string -> slack.WebhookMessage -> option string)
  (env : Env) (cfg : HandlerConfig) (event : Event)
  (url : string) (msg : slack.WebhookMessage) :
  snd (checkArgs env cfg event) = None ->
  In (url, msg)
     (posts (fst (sendMessage EvalTemplate PostWebhook (fst (checkArgs env cfg event)) event))) ->
  url = webhook_after_overlay env cfg /\ url <> "".
Proof.
  intros Hok Hin.
  assert (Hw : webhook_after_overlay env cfg <> "").
  { rewrite checkArgs_error in Hok.
    destruct (Z.eqb_spec (len (webhook_after_overlay env cfg)) 0) as [H0 | H0];
      [discriminate Hok |].
    intros Hc. apply H0. now rewrite Hc. }
  assert (Hu : url = webhook_after_overlay env cfg); [| now rewrite Hu].
  rewrite <- (checkArgs_webhook env cfg event).
  rewrite sendMessage_eval in Hin.
  pose proof (messageAttachment_posts EvalTemplate (fst (checkArgs env cfg event)) event) as Hp.
  destruct (messageAttachment EvalTemplate (fst (checkArgs env cfg event)) event)
    as [t [attachment | p]]; simpl in Hp.
  - cbv zeta in Hin. destruct (PostWebhook _ _); simpl in Hin;
      rewrite posts_app, Hp in Hin; simpl in Hin;
      destruct Hin as [Hin | []]; now injection Hin as <- _.
  - simpl in Hin. rewrite Hp in Hin. destruct Hin.
Qed.

Lemma validated_post_url_witness :
  "http://old.example.com/webhook" = webhook_after_overlay env_deprecated cfg_primary /\
  "http://old.example.com/webhook" <> "".
Proof.
  apply (validated_post_url okTemplate (fun _ _ => None) env_deprecated cfg_primary ev_disk
           "http://old.example.com/webhook"
           (slack.mkWebhookMessage "sensu" "https://www.sensu.io/img/sensu-logo.png"
              "#general"
              [slack.mkAttachment "#36a64f" "RESOLVED - entity1/check1:disk is full"
                 "" "" "" ("*OK* on entity1" ++ lit_n ++ "disk is full") []
                 [slack.mkAction "" "View in Sensu" "" "button" ""
                    "http://example.com/ui/n/default/events/entity1/check1"]
                 ["text"] "" ""])).
  - reflexivity.
  - left. reflexivity.
Defined.
